(** * Slate: the [State] model (lib/models/state.js)

    A shallow embedding of [State], the immutable record that aggregates a
    document, a selection, a history and the [isNative] flag, together with
    its editing methods [delete], [deleteBackward], [deleteForward],
    [insertText], [split] and the five document-like methods mixed into its
    prototype.

    [state.js] imports [Document] and [Selection] from sibling modules.  The
    embedding takes them as an interface ([Collaborators]); the editing
    methods are written once, against that interface, in the order in which
    the JavaScript evaluates its calls.  A concrete tree-shaped instance
    ([Tree]) makes the methods executable on example documents.

    [transform()] only wraps the receiver into a [Transform]; it is left
    out, together with the [./transform] module it needs. *)

From Stdlib Require Import List String ZArith Bool Arith Lia.
Import ListNotations.

Local Open Scope string_scope.
Local Open Scope Z_scope.

(** ** JavaScript values, exceptions and results *)

Module JS.

(** Exceptions the modelled code can raise.  The first two are the
    [TypeError]s of the runtime itself: reading a property of [null] or
    [undefined], and calling something that is not a function.  [Raised]
    is an error thrown by a collaborator. *)
Inductive error : Type :=
| CannotReadProperty (prop : string)
| NotAFunction (name : string)
| Raised (msg : string).

Inductive result (A : Type) : Type :=
| Ok (a : A)
| Throw (e : error).

Arguments Ok {A} a.
Arguments Throw {A} e.

Definition ret {A : Type} (a : A) : result A := Ok a.

Definition bind {A B : Type} (m : result A) (k : A -> result B) : result B :=
  match m with
  | Ok a => k a
  | Throw e => Throw e
  end.

(** A formal parameter with a default value: [function (n = 1)]. *)
Definition default_param {A : Type} (d : A) (arg : option A) : A :=
  match arg with
  | Some a => a
  | None => d
  end.

(** Argument values that can be handed to a document method.  [N], [S]
    and [D] are the node, selection and document types. *)
Inductive value (N S D : Type) : Type :=
| VUndefined
| VNull
| VBoolean (b : bool)
| VNumber (z : Z)
| VString (s : string)
| VNode (n : N)
| VSelection (s : S)
| VDocument (d : D).

Arguments VUndefined {N S D}.
Arguments VNull {N S D}.
Arguments VBoolean {N S D} b.
Arguments VNumber {N S D} z.
Arguments VString {N S D} s.
Arguments VNode {N S D} n.
Arguments VSelection {N S D} s.
Arguments VDocument {N S D} d.

(** [text.length] *)
Definition length (text : string) : Z := Z.of_nat (String.length text).

End JS.

Export JS.

Declare Scope js_scope.
Delimit Scope js_scope with js.
Notation "x <- m ;; k" := (bind m (fun x => k))
  (at level 61, m at next level, right associativity) : js_scope.
Local Open Scope js_scope.

(** ** The imported collaborators

    What [state.js] uses of [./document] and [./selection].  Getters are
    fields; methods that receive a node the caller obtained from a lookup
    (and which may therefore be [undefined], here [None]) return a
    [result].  The range methods of a document are reached by name, as the
    mixin at the end of [state.js] does with [document[method](...args)]:
    [Document_method name] is [None] when the document has no such method. *)

Class Collaborators : Type := {
  Key : Type;
  Node : Type;
  Selection : Type;
  Document : Type;

  (* [new Document()], [new Selection()] *)
  Document_new : Document;
  Selection_new : Selection;

  (* a document is itself a node: [selection.isAtEndOf(document)] *)
  asNode : Document -> Node;
  (* [node.nodes], an immutable List, absent on nodes without children *)
  nodes : Node -> option (list Node);

  (* Selection *)
  startKey : Selection -> option Key;
  isCollapsed : Selection -> bool;
  isExpanded : Selection -> bool;
  isAtStartOf : Selection -> option Node -> result bool;
  isAtEndOf : Selection -> option Node -> result bool;
  moveToStart : Selection -> Selection;
  moveBackward : Selection -> Z -> Selection;
  moveForward : Selection -> Z -> Selection;
  moveToStartOf : Selection -> option Node -> result Selection;
  moveToEndOf : Selection -> option Node -> result Selection;

  (* Document *)
  getNode : Document -> option Key -> result (option Node);
  getParentNode : Document -> option Node -> result (option Node);
  getPreviousNode : Document -> option Node -> result (option Node);
  getNextNode : Document -> option Node -> result (option Node);
  Document_method :
    string -> option (Document -> list (value Node Selection Document) -> result Document);

  (* a selection is expanded exactly when it is not collapsed *)
  isExpanded_isCollapsed : forall s, isExpanded s = negb (isCollapsed s)
}.

Module Model.

Section WithCollaborators.

Context {C : Collaborators}.

Definition Value : Type := value Node Selection Document.

(** [document[name](...args)] *)
Definition call (document : Document) (name : string) (args : list Value)
  : result Document :=
  match Document_method name with
  | Some f => f document args
  | None => Throw (NotAFunction name)
  end.

(** [x.nodes.first()] for an [x] that came back from a lookup *)
Definition nodes_first (x : option Node) : result (option Node) :=
  match x with
  | None => Throw (CannotReadProperty "nodes")
  | Some node =>
      match nodes node with
      | None => Throw (CannotReadProperty "first")
      | Some children => Ok (hd_error children)
      end
  end.

(** *** History *)

Context {Entry : Type}.

Record History : Type := mkHistory {
  undos : list Entry;
  redos : list Entry
}.

(** [new History()] *)
Definition History_new : History := {| undos := []; redos := [] |}.

(** *** State *)

Record State : Type := mkState {
  document : Document;
  selection : Selection;
  history : History;
  isNative : bool
}.

(** A plain object with some of the record's keys, as passed to the
    constructor and to [merge]. *)
Record Properties : Type := mkProperties {
  p_document : option Document;
  p_selection : option Selection;
  p_history : option History;
  p_isNative : option bool
}.

(** [{}] *)
Definition no_properties : Properties :=
  {| p_document := None; p_selection := None;
     p_history := None; p_isNative := None |}.

Definition DEFAULT_PROPERTIES : State :=
  {| document := Document_new;
     selection := Selection_new;
     history := History_new;
     isNative := true |}.

(** [record.merge(properties)] *)
Definition merge (this : State) (p : Properties) : State :=
  {| document := default_param (document this) (p_document p);
     selection := default_param (selection this) (p_selection p);
     history := default_param (history this) (p_history p);
     isNative := default_param (isNative this) (p_isNative p) |}.

(** [static create(properties = {})] *)
Definition create (properties : option Properties) : State :=
  merge DEFAULT_PROPERTIES (default_param no_properties properties).

(** [delete()] *)
Definition delete (this : State) : result State :=
  let state := this in
  let document := document state in
  let selection := selection state in
  if isCollapsed selection then ret state
  else
    document <- call document "deleteAtRange" [VSelection selection] ;;
    let selection := moveToStart selection in
    let state :=
      merge state {| p_document := Some document; p_selection := Some selection;
                     p_history := None; p_isNative := None |} in
    ret state.

(** [deleteBackward(n = 1)] *)
Definition deleteBackward (this : State) (n : option Z) : result State :=
  let n := default_param 1 n in
  let state := this in
  let document := document state in
  let selection := selection state in
  let after := selection in
  startNode <- getNode document (startKey selection) ;;
  after <-
    (if isExpanded selection then ret (moveToStart selection)
     else
       atStart <- isAtStartOf selection startNode ;;
       if (atStart : bool) then
         parent <- getParentNode document startNode ;;
         sibling <- getPreviousNode document parent ;;
         previous <- nodes_first sibling ;;
         moveToEndOf selection previous
       else
         atEnd <- isAtEndOf selection (Some (asNode document)) ;;
         if negb atEnd then ret (moveBackward selection n)
         else ret after) ;;
  document <- call document "deleteBackwardAtRange" [VSelection selection] ;;
  let selection := after in
  ret (merge state {| p_document := Some document; p_selection := Some selection;
                      p_history := None; p_isNative := None |}).

(** [deleteForward(n = 1)] *)
Definition deleteForward (this : State) (n : option Z) : result State :=
  let n := default_param 1 n in
  let state := this in
  let document := document state in
  let selection := selection state in
  let after := if isExpanded selection then moveToStart selection else selection in
  document <- call document "deleteForwardAtRange" [VSelection selection] ;;
  let selection := after in
  ret (merge state {| p_document := Some document; p_selection := Some selection;
                      p_history := None; p_isNative := None |}).

(** [insertText(text)] *)
Definition insertText (this : State) (text : string) : result State :=
  let state := this in
  let document := document state in
  let selection := selection state in
  document <- call document "insertTextAtRange" [VSelection selection; VString text] ;;
  let selection := moveForward selection (JS.length text) in
  ret (merge state {| p_document := Some document; p_selection := Some selection;
                      p_history := None; p_isNative := None |}).

(** [split()] *)
Definition split (this : State) : result State :=
  let state := this in
  let selection := selection state in
  document <- call (document state) "splitAtRange" [VSelection selection] ;;
  startNode <- getNode document (startKey selection) ;;
  parent <- getParentNode document startNode ;;
  next <- getNextNode document parent ;;
  text <- nodes_first next ;;
  selection <- moveToStartOf selection text ;;
  ret (merge state {| p_document := Some document; p_selection := Some selection;
                      p_history := None; p_isNative := None |}).

(** *** The document-like methods mixed into the prototype *)

Definition DOCUMENT_LIKE_METHODS : list string :=
  [ "deleteAtRange";
    "deleteBackwardAtRange";
    "deleteForwardAtRange";
    "insertAtRange";
    "splitAtRange" ].

Definition Method : Type := State -> list Value -> result State.

(** The prototype's dynamically assigned slots, most recent first. *)
Definition Prototype : Type := list (string * Method).

(** The function assigned to [State.prototype[method]]. *)
Definition document_like (method : string) : Method :=
  fun this args =>
    document <- call (document this) method args ;;
    ret (merge this {| p_document := Some document; p_selection := None;
                       p_history := None; p_isNative := None |}).

(** [State.prototype[method] = value] *)
Definition assign (proto : Prototype) (method : string) (f : Method) : Prototype :=
  (method, f) :: proto.

(** [State.prototype[method]] *)
Fixpoint lookup (proto : Prototype) (method : string) : option Method :=
  match proto with
  | [] => None
  | (name, f) :: rest => if String.eqb name method then Some f else lookup rest method
  end.

(** [DOCUMENT_LIKE_METHODS.forEach((method) => { ... })] *)
Definition State_prototype : Prototype :=
  fold_left (fun proto method => assign proto method (document_like method))
            DOCUMENT_LIKE_METHODS [].

(** [state[method](...args)] for a dynamically assigned slot *)
Definition invoke (this : State) (method : string) (args : list Value) : result State :=
  match lookup State_prototype method with
  | Some f => f this args
  | None => Throw (NotAFunction method)
  end.

(** *** Running an editing method

    The editing surface of [State] as one type of requests, so that a
    statement can range over all of its methods. *)

Inductive edit : Type :=
| Delete
| DeleteBackward (n : option Z)
| DeleteForward (n : option Z)
| InsertText (text : string)
| Split
| DocumentLike (method : string) (args : list Value).

Definition run (this : State) (e : edit) : result State :=
  match e with
  | Delete => delete this
  | DeleteBackward n => deleteBackward this n
  | DeleteForward n => deleteForward this n
  | InsertText text => insertText this text
  | Split => split this
  | DocumentLike method args => invoke this method args
  end.

(** [this] with its document and selection replaced. *)
Definition updated (this : State) (document' : Document) (selection' : Selection)
  : State :=
  {| document := document';
     selection := selection';
     history := history this;
     isNative := isNative this |}.

(** Editing methods called one after the other, each on the state the one
    before returned: [state.split().insertText(t). ...].  The first
    exception ends the chain. *)
Fixpoint run_all (this : State) (edits : list edit) : result State :=
  match edits with
  | [] => ret this
  | e :: rest => next <- run this e ;; run_all next rest
  end.

(** A chain of document-like methods on a state, each given by its name
    and its arguments. *)
Fixpoint invoke_all (this : State) (calls : list (string * list Value)) : result State :=
  match calls with
  | [] => ret this
  | (method, args) :: rest => next <- invoke this method args ;; invoke_all next rest
  end.

(** The same chain of calls made on a document directly. *)
Fixpoint call_all (document : Document) (calls : list (string * list Value))
  : result Document :=
  match calls with
  | [] => ret document
  | (method, args) :: rest => next <- call document method args ;; call_all next rest
  end.

End WithCollaborators.

End Model.

(** ** A tree-shaped document and a key/offset selection

    The modules [./document] and [./selection] are described by their
    contract only (sections 3, 4.1 and 4.2 of the specification).  [Tree]
    is one instance of that contract: a document is an ordered forest of
    keyed nodes under an implicit root, a selection is a pair of
    (key, offset) endpoints.  A text node carries the concatenation of its
    ranges; marks are not represented, no method of [State] reads them. *)

Module Tree.

Definition key : Type := nat.

#[local] Set Warnings "-register-all".

(** Modelled from the spec: the nodes of [./document] (section 3): a text
    leaf or a container of ordered children, each with a key. *)
Inductive node : Type :=
| Text (k : key) (text : string)
| Container (k : key) (children : list node).

Arguments Text k%_nat text%_string.
Arguments Container k%_nat children%_list.

(** Modelled from the spec: the document of [./document] (section 3), the
    root container: its children, in order. *)
Definition document : Type := list node.

(** The key of the root container; the nodes below it use other keys. *)
Definition root_key : key := 0%nat.

(** Modelled from the spec: the record of [./selection] (section 3): a
    start and an end endpoint, each a node key and a character offset. *)
Record selection : Type := mkSelection {
  sel_startKey : option key;
  sel_startOffset : Z;
  sel_endKey : option key;
  sel_endOffset : Z
}.

Definition tvalue : Type := value node selection document.

Definition key_of (n : node) : key :=
  match n with
  | Text k _ => k
  | Container k _ => k
  end.

Definition has_key (k : key) (n : node) : bool := Nat.eqb (key_of n) k.

Definition root (d : document) : node := Container root_key d.

Definition children_of (n : node) : option (list node) :=
  match n with
  | Text _ _ => None
  | Container _ children => Some children
  end.

(** *** Strings *)

Definition take (n : Z) (s : string) : string :=
  String.substring 0 (Z.to_nat n) s.

Definition drop (n : Z) (s : string) : string :=
  String.substring (Z.to_nat n) (String.length s - Z.to_nat n) s.

(** [s] without its characters at offsets [from <= i < to] *)
Definition cut (from to : Z) (s : string) : string :=
  take from s ++ drop (Z.max from to) s.

(** [s] with [t] spliced in at offset [at_] *)
Definition splice (at_ : Z) (t s : string) : string :=
  take at_ s ++ t ++ drop at_ s.

(** *** Traversals *)

Definition first_some {A B : Type} (f : A -> option B) : list A -> option B :=
  fix go (l : list A) : option B :=
    match l with
    | [] => None
    | a :: rest =>
        match f a with
        | Some b => Some b
        | None => go rest
        end
    end.

(** The text leaves below a node, in document order. *)
Fixpoint texts (n : node) : list (key * string) :=
  match n with
  | Text k s => [(k, s)]
  | Container _ children => flat_map texts children
  end.

Definition first_text (n : node) : option (key * string) := hd_error (texts n).

Definition last_text (n : node) : option (key * string) :=
  hd_error (rev (texts n)).

Fixpoint find_node (k : key) (n : node) : option node :=
  if has_key k n then Some n
  else match n with
       | Text _ _ => None
       | Container _ children => first_some (find_node k) children
       end.

(** The container whose children include the node keyed [k]. *)
Fixpoint parent_of (k : key) (n : node) : option node :=
  match n with
  | Text _ _ => None
  | Container _ children =>
      if existsb (has_key k) children then Some n
      else first_some (parent_of k) children
  end.

(** The element just before the one keyed [k]. *)
Fixpoint before (k : key) (l : list node) : option node :=
  match l with
  | a :: (b :: _) as rest => if has_key k b then Some a else before k rest
  | _ => None
  end.

(** The element just after the one keyed [k]. *)
Fixpoint after (k : key) (l : list node) : option node :=
  match l with
  | a :: rest => if has_key k a then hd_error rest else after k rest
  | [] => None
  end.

Definition siblings_of (d : document) (k : key) : list node :=
  match parent_of k (root d) with
  | Some (Container _ children) => children
  | _ => []
  end.

Fixpoint max_key (n : node) : key :=
  match n with
  | Text k _ => k
  | Container k children => fold_right (fun c m => Nat.max (max_key c) m) k children
  end.

Fixpoint update_text (k : key) (f : string -> string) (n : node) : node :=
  match n with
  | Text k' s => if Nat.eqb k' k then Text k' (f s) else n
  | Container k' children => Container k' (map (update_text k f) children)
  end.

(** Remove the text leaves keyed in [dead], and the containers this
    leaves without children. *)
Fixpoint prune (dead : list key) (n : node) : list node :=
  match n with
  | Text k _ => if existsb (Nat.eqb k) dead then [] else [n]
  | Container k children =>
      match children, flat_map (prune dead) children with
      | _ :: _, [] => []
      | _, kept => [Container k kept]
      end
  end.

Definition text_of (d : document) (k : key) : option string :=
  match find_node k (root d) with
  | Some (Text _ s) => Some s
  | _ => None
  end.

(** The keys of the text leaves after [from] up to and including [to]. *)
Fixpoint upto (to : key) (l : list (key * string)) : list key :=
  match l with
  | [] => []
  | (k, _) :: rest => if Nat.eqb k to then [k] else k :: upto to rest
  end.

Fixpoint following (from : key) (l : list (key * string)) : list (key * string) :=
  match l with
  | [] => []
  | (k, _) :: rest => if Nat.eqb k from then rest else following from rest
  end.

Definition preceding (to : key) (l : list (key * string)) : list (key * string) :=
  rev (following to (rev l)).

(** *** Selection *)

Definition same_key (a b : option key) : bool :=
  match a, b with
  | Some x, Some y => Nat.eqb x y
  | None, None => true
  | _, _ => false
  end.

(** Modelled from the spec: [new Selection()], the empty selection of
    [./selection]: no keys, offsets zero. *)
Definition Selection_new : selection :=
  {| sel_startKey := None; sel_startOffset := 0;
     sel_endKey := None; sel_endOffset := 0 |}.

Definition collapsed_at (k : key) (offset : Z) : selection :=
  {| sel_startKey := Some k; sel_startOffset := offset;
     sel_endKey := Some k; sel_endOffset := offset |}.

Arguments collapsed_at k%_nat offset%_Z.

(** A selection from one (key, offset) endpoint to another. *)
Definition range (ks : key) (os : Z) (ke : key) (oe : Z) : selection :=
  {| sel_startKey := Some ks; sel_startOffset := os;
     sel_endKey := Some ke; sel_endOffset := oe |}.

Arguments range ks%_nat os%_Z ke%_nat oe%_Z.

(** Modelled from the spec: [isCollapsed] of [./selection] (section 3):
    the two endpoints are equal. *)
Definition isCollapsed (s : selection) : bool :=
  same_key (sel_startKey s) (sel_endKey s)
  && Z.eqb (sel_startOffset s) (sel_endOffset s).

(** Modelled from the spec: [isExpanded] of [./selection] (glossary): the
    two endpoints differ. *)
Definition isExpanded (s : selection) : bool := negb (isCollapsed s).

(** Modelled from the spec: [isAtStartOf(node)] of [./selection] (section
    4.2): the start endpoint is offset zero of the first text of [node]. *)
Definition isAtStartOf (s : selection) (n : option node) : result bool :=
  match n with
  | None => Throw (CannotReadProperty "key")
  | Some n =>
      match first_text n with
      | Some (k, _) => Ok (same_key (sel_startKey s) (Some k) && Z.eqb (sel_startOffset s) 0)
      | None => Ok false
      end
  end.

(** Modelled from the spec: [isAtEndOf(node)] of [./selection] (section
    4.2): the end endpoint is the end of the last text of [node]. *)
Definition isAtEndOf (s : selection) (n : option node) : result bool :=
  match n with
  | None => Throw (CannotReadProperty "key")
  | Some n =>
      match last_text n with
      | Some (k, t) =>
          Ok (same_key (sel_endKey s) (Some k) && Z.eqb (sel_endOffset s) (JS.length t))
      | None => Ok false
      end
  end.

(** Modelled from the spec: [moveToStart()] of [./selection] (section 4.3):
    collapse onto the start endpoint. *)
Definition moveToStart (s : selection) : selection :=
  {| sel_startKey := sel_startKey s; sel_startOffset := sel_startOffset s;
     sel_endKey := sel_startKey s; sel_endOffset := sel_startOffset s |}.

(** Offsets never go below zero; a selection does not know the length
    of the text it points into. *)
Definition shift (s : selection) (by_ : Z) : selection :=
  {| sel_startKey := sel_startKey s; sel_startOffset := Z.max 0 (sel_startOffset s + by_);
     sel_endKey := sel_endKey s; sel_endOffset := Z.max 0 (sel_endOffset s + by_) |}.

(** Modelled from the spec: [moveBackward(n)] of [./selection] (section
    4.2). *)
Definition moveBackward (s : selection) (n : Z) : selection := shift s (- n).

(** Modelled from the spec: [moveForward(n)] of [./selection] (section
    4.2). *)
Definition moveForward (s : selection) (n : Z) : selection := shift s n.

(** Modelled from the spec: [moveToStartOf(node)] of [./selection] (section
    4.3): collapsed at offset zero of the first text of [node]. *)
Definition moveToStartOf (s : selection) (n : option node) : result selection :=
  match n with
  | None => Throw (CannotReadProperty "key")
  | Some n =>
      match first_text n with
      | Some (k, _) => Ok (collapsed_at k 0)
      | None => Ok (collapsed_at (key_of n) 0)
      end
  end.

(** Modelled from the spec: [moveToEndOf(node)] of [./selection] (section
    4.3): collapsed at the end of the last text of [node]. *)
Definition moveToEndOf (s : selection) (n : option node) : result selection :=
  match n with
  | None => Throw (CannotReadProperty "key")
  | Some n =>
      match last_text n with
      | Some (k, t) => Ok (collapsed_at k (JS.length t))
      | None => Ok (collapsed_at (key_of n) 0)
      end
  end.

(** *** Document: navigation *)

(** Modelled from the spec: [getNode(key)] of [./document] (section 4.1);
    [null] when no node has the key. *)
Definition getNode (d : document) (k : option key) : result (option node) :=
  match k with
  | None => Ok None
  | Some k => Ok (find_node k (root d))
  end.

(** Modelled from the spec: [getParentNode(node)] of [./document] (section
    4.1); [null] for the root. *)
Definition getParentNode (d : document) (n : option node) : result (option node) :=
  match n with
  | None => Throw (CannotReadProperty "key")
  | Some n => Ok (parent_of (key_of n) (root d))
  end.

(** Modelled from the spec: [getPreviousNode(node)] of [./document]
    (section 4.1): the sibling before [node] under the same parent, [null]
    if none exists. *)
Definition getPreviousNode (d : document) (n : option node) : result (option node) :=
  match n with
  | None => Throw (CannotReadProperty "key")
  | Some n => Ok (before (key_of n) (siblings_of d (key_of n)))
  end.

(** Modelled from the spec: [getNextNode(node)] of [./document] (section
    4.1): the sibling after [node] under the same parent, [null] if none
    exists. *)
Definition getNextNode (d : document) (n : option node) : result (option node) :=
  match n with
  | None => Throw (CannotReadProperty "key")
  | Some n => Ok (after (key_of n) (siblings_of d (key_of n)))
  end.

(** *** Document: range operations *)

(** The first argument of a range operation. *)
Definition range_arg (args : list tvalue) : result selection :=
  match args with
  | VSelection s :: _ => Ok s
  | _ => Throw (CannotReadProperty "startKey")
  end.

(** The optional character count of the backward and forward deletions. *)
Definition count_arg (args : list tvalue) : Z :=
  match args with
  | _ :: VNumber n :: _ => n
  | _ => 1
  end.

Definition text_arg (args : list tvalue) : result string :=
  match args with
  | _ :: VString t :: _ => Ok t
  | _ => Throw (CannotReadProperty "length")
  end.

(** The text node an endpoint refers to; a key that names no text node
    of the document is an invalid reference. *)
Definition endpoint (d : document) (k : option key) : result (key * string) :=
  match k with
  | None => Throw (Raised "invalid reference")
  | Some k =>
      match text_of d k with
      | Some s => Ok (k, s)
      | None => Throw (Raised "invalid reference")
      end
  end.

(** Modelled from the spec: the removal behind [deleteAtRange] of
    [./document] (section 4.1): the spanned content goes; over several
    nodes, what survives of the last one joins the first. *)
Definition delete_range (d : document) (r : selection) : result document :=
  first <- endpoint d (sel_startKey r) ;;
  last <- endpoint d (sel_endKey r) ;;
  let '(ks, _) := first in
  let '(ke, tail) := last in
  if Nat.eqb ks ke then
    Ok (map (update_text ks (cut (sel_startOffset r) (sel_endOffset r))) d)
  else
    let later := following ks (texts (root d)) in
    if existsb (fun t => Nat.eqb (fst t) ke) later then
      let merged := fun s => take (sel_startOffset r) s ++ drop (sel_endOffset r) tail in
      Ok (flat_map (prune (upto ke later)) (map (update_text ks merged) d))
    else Throw (Raised "invalid reference").

(** Modelled from the spec: [deleteAtRange(range)] of [./document]
    (section 4.1). *)
Definition deleteAtRange (d : document) (args : list tvalue) : result document :=
  r <- range_arg args ;;
  delete_range d r.

(** Modelled from the spec: [deleteBackwardAtRange(range, n = 1)] of
    [./document] (sections 4.1 and 8): an expanded range is removed; a
    cursor loses the [n] characters before it, and at offset zero its text
    joins the text before. *)
Definition deleteBackwardAtRange (d : document) (args : list tvalue) : result document :=
  r <- range_arg args ;;
  let n := count_arg args in
  if isExpanded r then delete_range d r
  else
    here <- endpoint d (sel_startKey r) ;;
    let '(k, _) := here in
    let offset := sel_startOffset r in
    if 0 <? offset then Ok (map (update_text k (cut (Z.max 0 (offset - n)) offset)) d)
    else
      match hd_error (rev (preceding k (texts (root d)))) with
      | None => Ok d
      | Some (kp, tp) =>
          delete_range d {| sel_startKey := Some kp; sel_startOffset := JS.length tp;
                            sel_endKey := Some k; sel_endOffset := 0 |}
      end.

(** Modelled from the spec: [deleteForwardAtRange(range, n = 1)] of
    [./document] (section 4.1): an expanded range is removed; a cursor
    loses the [n] characters after it, and at the end of its text the text
    after joins it. *)
Definition deleteForwardAtRange (d : document) (args : list tvalue) : result document :=
  r <- range_arg args ;;
  let n := count_arg args in
  if isExpanded r then delete_range d r
  else
    here <- endpoint d (sel_startKey r) ;;
    let '(k, t) := here in
    let offset := sel_startOffset r in
    if offset <? JS.length t then Ok (map (update_text k (cut offset (offset + n))) d)
    else
      match hd_error (following k (texts (root d))) with
      | None => Ok d
      | Some (kn, _) =>
          delete_range d {| sel_startKey := Some k; sel_startOffset := offset;
                            sel_endKey := Some kn; sel_endOffset := 0 |}
      end.

(** Modelled from the spec: [insertAtRange(range, text)] of [./document]
    (section 4.1): the text goes in at the start of the range, after the
    content of an expanded range is removed. *)
Definition insertAtRange (d : document) (args : list tvalue) : result document :=
  r <- range_arg args ;;
  t <- text_arg args ;;
  d <- (if isExpanded r then delete_range d r else Ok d) ;;
  here <- endpoint d (sel_startKey r) ;;
  Ok (map (update_text (fst here) (splice (sel_startOffset r) t)) d).

(** [children] around the text node keyed [k], when it is among them. *)
Fixpoint around (k : key) (children : list node)
  : option (list node * string * list node) :=
  match children with
  | [] => None
  | Text k' s :: rest =>
      if Nat.eqb k' k then Some ([], s, rest)
      else match around k rest with
           | Some (l, t, r) => Some (Text k' s :: l, t, r)
           | None => None
           end
  | c :: rest =>
      match around k rest with
      | Some (l, t, r) => Some (c :: l, t, r)
      | None => None
      end
  end.

(** Split the container that holds the text node keyed [k] at [offset];
    the trailing container and its leading text node get the keys
    [fresh] and [S fresh]. *)
Fixpoint split_node (k : key) (offset : Z) (fresh : key) (n : node) : list node :=
  match n with
  | Text _ _ => [n]
  | Container kc children =>
      match around k children with
      | Some (l, t, r) =>
          [ Container kc (l ++ [Text k (take offset t)]);
            Container fresh (Text (S fresh) (drop offset t) :: r) ]
      | None => [Container kc (flat_map (split_node k offset fresh) children)]
      end
  end.

(** Modelled from the spec: [splitAtRange(range)] of [./document] (section
    4.1): the container that holds the position becomes two sibling
    containers, the text split between them at the offset. *)
Definition splitAtRange (d : document) (args : list tvalue) : result document :=
  r <- range_arg args ;;
  d <- (if isExpanded r then delete_range d r else Ok d) ;;
  here <- endpoint d (sel_startKey r) ;;
  match around (fst here) d with
  | Some _ => Throw (Raised "cannot split the root")
  | None =>
      Ok (flat_map (split_node (fst here) (sel_startOffset r) (S (max_key (root d)))) d)
  end.

(** Modelled from the spec: the range operations [./document] exposes
    (section 4.1), by name; they are the names of
    [DOCUMENT_LIKE_METHODS]. *)
Definition Document_method (name : string)
  : option (document -> list tvalue -> result document) :=
  if String.eqb name "deleteAtRange" then Some deleteAtRange
  else if String.eqb name "deleteBackwardAtRange" then Some deleteBackwardAtRange
  else if String.eqb name "deleteForwardAtRange" then Some deleteForwardAtRange
  else if String.eqb name "insertAtRange" then Some insertAtRange
  else if String.eqb name "splitAtRange" then Some splitAtRange
  else None.

End Tree.

(** The tree model implements the interface [State] is written against. *)
#[export] Instance Tree_collaborators : Collaborators :=
  {| Key := Tree.key;
     Node := Tree.node;
     Selection := Tree.selection;
     Document := Tree.document;
     Document_new := [];
     Selection_new := Tree.Selection_new;
     asNode := Tree.root;
     nodes := Tree.children_of;
     startKey := Tree.sel_startKey;
     isCollapsed := Tree.isCollapsed;
     isExpanded := Tree.isExpanded;
     isAtStartOf := Tree.isAtStartOf;
     isAtEndOf := Tree.isAtEndOf;
     moveToStart := Tree.moveToStart;
     moveBackward := Tree.moveBackward;
     moveForward := Tree.moveForward;
     moveToStartOf := Tree.moveToStartOf;
     moveToEndOf := Tree.moveToEndOf;
     getNode := Tree.getNode;
     getParentNode := Tree.getParentNode;
     getPreviousNode := Tree.getPreviousNode;
     getNextNode := Tree.getNextNode;
     Document_method := Tree.Document_method;
     isExpanded_isCollapsed := fun s => eq_refl |}.


(** The tree model whose document answers to [insertTextAtRange] as well,
    the name [insertText] calls, with the behaviour of [insertAtRange].  It
    is not an instance: a statement that means it says so. *)
Definition Tree_typing : Collaborators :=
  {| Key := Tree.key;
     Node := Tree.node;
     Selection := Tree.selection;
     Document := Tree.document;
     Document_new := [];
     Selection_new := Tree.Selection_new;
     asNode := Tree.root;
     nodes := Tree.children_of;
     startKey := Tree.sel_startKey;
     isCollapsed := Tree.isCollapsed;
     isExpanded := Tree.isExpanded;
     isAtStartOf := Tree.isAtStartOf;
     isAtEndOf := Tree.isAtEndOf;
     moveToStart := Tree.moveToStart;
     moveBackward := Tree.moveBackward;
     moveForward := Tree.moveForward;
     moveToStartOf := Tree.moveToStartOf;
     moveToEndOf := Tree.moveToEndOf;
     getNode := Tree.getNode;
     getParentNode := Tree.getParentNode;
     getPreviousNode := Tree.getPreviousNode;
     getNextNode := Tree.getNextNode;
     Document_method := fun name =>
       if String.eqb name "insertTextAtRange" then Some Tree.insertAtRange
       else Tree.Document_method name;
     isExpanded_isCollapsed := fun s => eq_refl |}.


(** ** Example states over the tree model *)

Module Examples.

Import Model.

(** History entries of the examples are labels. *)
Definition TreeState : Type := @State Tree_collaborators string.

Definition fresh_history : History (Entry := string) := History_new.

Definition used_history : History (Entry := string) :=
  {| undos := ["typed Hello"; "created"]; redos := ["typed World"] |}.

Definition state_of (d : Tree.document) (s : Tree.selection) : TreeState :=
  {| document := d; selection := s; history := fresh_history; isNative := true |}.

(** One paragraph, "Hello World". *)
Definition hello_world : Tree.document :=
  [Tree.Container 1 [Tree.Text 2 "Hello World"]].

(** Two adjacent blocks, "Foo" and "Bar". *)
Definition foo_bar : Tree.document :=
  [Tree.Container 1 [Tree.Text 2 "Foo"]; Tree.Container 3 [Tree.Text 4 "Bar"]].

Definition foobar_merged : Tree.document :=
  [Tree.Container 1 [Tree.Text 2 "FooBar"]].

Definition hello_split : Tree.document :=
  [Tree.Container 1 [Tree.Text 2 "Hello"]; Tree.Container 3 [Tree.Text 4 " World"]].

(** Cursor after "Hello". *)
Definition hello_cursor : TreeState := state_of hello_world (Tree.collapsed_at 2 5).

(** Cursor at the very start of the only block. *)
Definition hello_at_start : TreeState := state_of hello_world (Tree.collapsed_at 2 0).

(** "llo W" selected. *)
Definition hello_selected : TreeState := state_of hello_world (Tree.range 2 2 2 7).

(** Cursor at the start of "Bar". *)
Definition bar_at_start : TreeState := state_of foo_bar (Tree.collapsed_at 4 0).

(** Cursor at the start of "Foo". *)
Definition foo_at_start : TreeState := state_of foo_bar (Tree.collapsed_at 2 0).

(** Cursor inside "Foo", after "Fo". *)
Definition foo_inside : TreeState := state_of foo_bar (Tree.collapsed_at 2 2).

(** Cursor at the end of "Bar", the end of the document. *)
Definition bar_at_end : TreeState := state_of foo_bar (Tree.collapsed_at 4 3).

(** "oo" and "B" selected across the two blocks. *)
Definition foo_bar_selected : TreeState := state_of foo_bar (Tree.range 2 1 4 1).

(** A state with a past, changed last by a programmatic edit. *)
Definition hello_with_past : TreeState :=
  {| document := hello_world; selection := Tree.collapsed_at 2 5;
     history := used_history; isNative := false |}.

(** A text node, then a block: the block's previous sibling has no
    children of its own. *)
Definition text_then_block : Tree.document :=
  [Tree.Text 1 "x"; Tree.Container 2 [Tree.Text 3 "Bar"]].

(** An empty block, then a block. *)
Definition empty_then_block : Tree.document :=
  [Tree.Container 1 []; Tree.Container 3 [Tree.Text 4 "Bar"]].

(** Cursor at the start of "Bar", after a bare text node. *)
Definition after_text_node : TreeState := state_of text_then_block (Tree.collapsed_at 3 0).

(** Cursor at the start of "Bar", after an empty block. *)
Definition after_empty_block : TreeState := state_of empty_then_block (Tree.collapsed_at 4 0).

(** Two raw range edits: insert " there" after "Hello", then remove the
    first six characters. *)
Definition insert_then_cut : list (string * list Tree.tvalue) :=
  [ ("insertAtRange", [VSelection (Tree.collapsed_at 2 5); VString " there"]);
    ("deleteAtRange", [VSelection (Tree.range 2 0 2 6)]) ].

(** A state over the tree model, field by field. *)
Definition snapshot (d : Tree.document) (s : Tree.selection)
           (h : History (Entry := string)) (native : bool) : TreeState :=
  {| document := d; selection := s; history := h; isNative := native |}.

(** One block holding one text node. *)
Definition paragraph (text : string) : Tree.document :=
  [Tree.Container 1 [Tree.Text 2 text]].

(** Two adjacent blocks, one text node each. *)
Definition two_blocks (a b : string) : Tree.document :=
  [Tree.Container 1 [Tree.Text 2 a]; Tree.Container 3 [Tree.Text 4 b]].

(** A state over [Tree_typing], field by field. *)
Definition typing_snapshot (d : Tree.document) (s : Tree.selection)
           (h : History (Entry := string)) (native : bool)
  : @State Tree_typing string :=
  @mkState Tree_typing string d s h native.


End Examples.

(** ** Properties of [State] *)

Module Laws.

Import Model.

Section WithCollaborators.

Context {C : Collaborators} {Entry : Type}.

Local Abbreviation State := (Model.State (Entry := Entry)).

(** Case analysis on the results a method threads through [bind]. *)
Ltac step_results H :=
  repeat match type of H with
         | context [bind ?m _] =>
             let E := fresh "E" in
             destruct m eqn:E; cbn [bind ret] in H; try discriminate H
         | context [if ?b then _ else _] =>
             let E := fresh "E" in
             destruct b eqn:E; cbn [bind ret] in H; try discriminate H
         end.

(** [merge] with a document and a selection replaces exactly these two. *)
Lemma merge_document_selection (this : State) (d : Document) (s : Selection) :
  merge this {| p_document := Some d; p_selection := Some s;
                p_history := None; p_isNative := None |}
  = updated this d s.
Proof. reflexivity. Qed.

(** [merge] with a document alone keeps the selection. *)
Lemma merge_document (this : State) (d : Document) :
  merge this {| p_document := Some d; p_selection := None;
                p_history := None; p_isNative := None |}
  = updated this d (selection this).
Proof. reflexivity. Qed.

Lemma updated_frame (this : State) (d : Document) (s : Selection) :
  history (updated this d s) = history this
  /\ isNative (updated this d s) = isNative this.
Proof. split; reflexivity. Qed.

Lemma collapsed_not_expanded (s : Selection) :
  isCollapsed s = true -> isExpanded s = false.
Proof. intros H. rewrite isExpanded_isCollapsed, H. reflexivity. Qed.

Lemma expanded_not_collapsed (s : Selection) :
  isExpanded s = true -> isCollapsed s = false.
Proof.
  intros H. rewrite isExpanded_isCollapsed in H.
  destruct (isCollapsed s); [discriminate | reflexivity].
Qed.

(** A call by name reaches the method the document has under that name. *)
Lemma call_method (d : Document) (name : string) (args : list Value) f :
  Document_method name = Some f -> call d name args = f d args.
Proof. intros H. unfold call. rewrite H. reflexivity. Qed.

(** A call by a name the document does not have is a [TypeError]. *)
Lemma call_missing (d : Document) (name : string) (args : list Value) :
  Document_method name = None -> call d name args = Throw (NotAFunction name).
Proof. intros H. unfold call. rewrite H. reflexivity. Qed.

(** [deleteForward] as one sequence: the document method receives the
    selection and nothing else. *)
Lemma deleteForward_unfold (this : State) (n : option Z) :
  deleteForward this n =
  (document' <- call (document this) "deleteForwardAtRange"
                     [VSelection (selection this)] ;;
   Ok (updated this document'
         (if isExpanded (selection this) then moveToStart (selection this)
          else selection this))).
Proof. reflexivity. Qed.

(** The count handed to [deleteForward] has no influence on its result. *)
Lemma deleteForward_count_irrelevant (this : State) (n m : option Z) :
  deleteForward this n = deleteForward this m.
Proof. reflexivity. Qed.


(** A state that comes back from a document-like method differs from the
    receiver in its document alone. *)
Lemma document_like_frame (method : string) (this next : State) (args : list Value) :
  document_like method this args = Ok next ->
  selection next = selection this
  /\ history next = history this
  /\ isNative next = isNative this.
Proof.
  unfold document_like. intros H. step_results H.
  injection H as <-. repeat split.
Qed.

(** The slots of the prototype are the five document-like methods, each
    bound to the function made for its own name. *)
Lemma lookup_State_prototype (method : string) (f : Method (Entry := Entry)) :
  lookup State_prototype method = Some f ->
  In method DOCUMENT_LIKE_METHODS /\ f = document_like method.
Proof.
  unfold State_prototype, DOCUMENT_LIKE_METHODS. cbn [fold_left assign lookup].
  repeat match goal with
         | |- context [String.eqb ?a method] =>
             destruct (String.eqb_spec a method) as [<- | _]
         end;
    intros H; try discriminate H; injection H as <-;
    (split; [cbn; tauto | reflexivity]).
Qed.

(** C7. [delete()] on a state whose selection is collapsed returns the
    receiver itself, so its document and its selection are the original
    ones.  This holds whatever the methods of the document do, also when
    each of them throws: none is applied. *)
Theorem delete_collapsed_is_identity (this : State) :
  isCollapsed (selection this) = true ->
  delete this = Ok this.
Proof. intros H. unfold delete. rewrite H. reflexivity. Qed.

(** C6. [delete()] on a state whose selection is expanded returns a state
    whose document is [document.deleteAtRange(selection)] and whose
    selection is [selection.moveToStart()]; history and [isNative] are the
    receiver's. *)
Theorem delete_expanded (this : State) (document' : Document) :
  isExpanded (selection this) = true ->
  call (document this) "deleteAtRange" [VSelection (selection this)] = Ok document' ->
  delete this = Ok (updated this document' (moveToStart (selection this))).
Proof.
  intros Hexp Hdel. unfold delete.
  rewrite (expanded_not_collapsed _ Hexp), Hdel. reflexivity.
Qed.

(** C1. [deleteBackward(n)] chooses the selection [after] on the document
    as it is before the deletion, by this precedence: expanded, the
    selection moved to its start; else at the start of the start node, the
    end of the first child of the previous sibling of that node's parent;
    else not at the end of the document, the selection moved backward by
    [n]; otherwise the selection itself.  The state returned has the
    document [document.deleteBackwardAtRange(selection)], called on the
    original selection, and the selection [after]. *)
Theorem deleteBackward_precedence
        (this : State) (arg : option Z) (startNode : option Node) (document' : Document) :
  getNode (document this) (startKey (selection this)) = Ok startNode ->
  call (document this) "deleteBackwardAtRange" [VSelection (selection this)]
  = Ok document' ->
  (isExpanded (selection this) = true ->
   deleteBackward this arg
   = Ok (updated this document' (moveToStart (selection this))))
  /\ (isExpanded (selection this) = false ->
      isAtStartOf (selection this) startNode = Ok true ->
      forall parent sibling children after,
        getParentNode (document this) startNode = Ok parent ->
        getPreviousNode (document this) parent = Ok (Some sibling) ->
        nodes sibling = Some children ->
        moveToEndOf (selection this) (hd_error children) = Ok after ->
        deleteBackward this arg = Ok (updated this document' after))
  /\ (isExpanded (selection this) = false ->
      isAtStartOf (selection this) startNode = Ok false ->
      isAtEndOf (selection this) (Some (asNode (document this))) = Ok false ->
      deleteBackward this arg
      = Ok (updated this document'
              (moveBackward (selection this) (default_param 1 arg))))
  /\ (isExpanded (selection this) = false ->
      isAtStartOf (selection this) startNode = Ok false ->
      isAtEndOf (selection this) (Some (asNode (document this))) = Ok true ->
      deleteBackward this arg = Ok (updated this document' (selection this))).
Proof.
  intros Hnode Hdel. unfold deleteBackward. rewrite Hnode. cbn [bind].
  repeat split.
  - intros ->. cbn [bind ret]. rewrite Hdel. reflexivity.
  - intros -> Hstart parent sibling children after Hparent Hprev Hnodes Hend.
    rewrite Hstart. cbn [bind]. rewrite Hparent. cbn [bind].
    rewrite Hprev. cbn [bind nodes_first]. rewrite Hnodes. cbn [bind].
    rewrite Hend. cbn [bind]. rewrite Hdel. reflexivity.
  - intros -> Hstart Hend. rewrite Hstart. cbn [bind]. rewrite Hend.
    cbn [bind negb ret]. rewrite Hdel. reflexivity.
  - intros -> Hstart Hend. rewrite Hstart. cbn [bind]. rewrite Hend.
    cbn [bind negb ret]. rewrite Hdel. reflexivity.
Qed.

(** C4. Where the claim expects a no-op, [deleteBackward] throws: with a
    collapsed selection at the start of a node whose parent has no previous
    sibling, [getPreviousNode] answers [null], and reading [.nodes] of it is
    a [TypeError].  No state is returned. *)
Theorem deleteBackward_without_previous_sibling
        (this : State) (arg : option Z) (startNode parent : option Node) :
  isCollapsed (selection this) = true ->
  getNode (document this) (startKey (selection this)) = Ok startNode ->
  isAtStartOf (selection this) startNode = Ok true ->
  getParentNode (document this) startNode = Ok parent ->
  getPreviousNode (document this) parent = Ok None ->
  deleteBackward this arg = Throw (CannotReadProperty "nodes").
Proof.
  intros Hcol Hnode Hstart Hparent Hprev. unfold deleteBackward.
  rewrite Hnode, (collapsed_not_expanded _ Hcol). cbn [bind].
  rewrite Hstart. cbn [bind]. rewrite Hparent. cbn [bind].
  rewrite Hprev. reflexivity.
Qed.


(** C5. [split()] returns a state whose document is
    [document.splitAtRange(selection)] and whose selection is found in that
    new document: the node at the original start key, its parent, the
    parent's next sibling, that sibling's first child, and the selection
    moved to the start of this child. *)
Theorem split_moves_into_next_sibling
        (this : State) (document' : Document)
        (startNode parent : option Node) (next : Node) (children : list Node)
        (selection' : Selection) :
  call (document this) "splitAtRange" [VSelection (selection this)] = Ok document' ->
  getNode document' (startKey (selection this)) = Ok startNode ->
  getParentNode document' startNode = Ok parent ->
  getNextNode document' parent = Ok (Some next) ->
  nodes next = Some children ->
  moveToStartOf (selection this) (hd_error children) = Ok selection' ->
  Model.split this = Ok (updated this document' selection').
Proof.
  intros Hsplit Hnode Hparent Hnext Hnodes Hmove. unfold Model.split.
  rewrite Hsplit. cbn [bind]. rewrite Hnode. cbn [bind].
  rewrite Hparent. cbn [bind]. rewrite Hnext. cbn [bind nodes_first].
  rewrite Hnodes. cbn [bind]. rewrite Hmove. reflexivity.
Qed.


(** C9. [State.create()] without properties is the record of the
    defaults: the document [new Document()], the selection
    [new Selection()], a history whose [undos] and [redos] are both empty,
    and [isNative] set.  Passing [{}] gives the same state. *)
Theorem create_defaults :
  create (Entry := Entry) None
  = {| document := Document_new;
       selection := Selection_new;
       history := {| undos := []; redos := [] |};
       isNative := true |}
  /\ create (Entry := Entry) (Some no_properties) = create None.
Proof. split; reflexivity. Qed.

(** C10. Whatever editing method returns a state, that state has the
    history and the [isNative] flag of the receiver. *)
Theorem editing_keeps_history_and_isNative (this next : State) (e : edit) :
  run this e = Ok next ->
  history next = history this /\ isNative next = isNative this.
Proof.
  destruct e as [| n | n | text | | method args]; cbn [run].
  - unfold delete. intros H. step_results H; injection H as <-; split; reflexivity.
  - unfold deleteBackward. intros H. step_results H;
      injection H as <-; split; reflexivity.
  - unfold deleteForward. intros H. step_results H;
      injection H as <-; split; reflexivity.
  - unfold insertText. intros H. step_results H;
      injection H as <-; split; reflexivity.
  - unfold Model.split. intros H. step_results H;
      injection H as <-; split; reflexivity.
  - unfold invoke. destruct (lookup State_prototype method) as [f |] eqn:E;
      [| discriminate].
    apply lookup_State_prototype in E as [_ ->].
    intros H. apply document_like_frame in H. tauto.
Qed.

(** *** Chains of edits, repeated edits and the edges of [deleteBackward] *)

Lemma updated_self (this : State) :
  updated this (document this) (selection this) = this.
Proof. destruct this; reflexivity. Qed.

(** Every slot named in [DOCUMENT_LIKE_METHODS] holds the function made
    for that name. *)
Lemma invoke_document_like (method : string) (this : State) (args : list Value) :
  In method DOCUMENT_LIKE_METHODS ->
  invoke this method args = document_like method this args.
Proof.
  cbn [In DOCUMENT_LIKE_METHODS].
  intros [<- | [<- | [<- | [<- | [<- | []]]]]]; reflexivity.
Qed.

(** An editing method that returns has replaced, at most, the document
    and the selection of its receiver. *)
Lemma run_updates (this next : State) (e : edit) :
  run this e = Ok next ->
  next = updated this (document next) (selection next).
Proof.
  destruct e as [| n | n | text | | method args]; cbn [run].
  - unfold delete. intros H. step_results H; injection H as <-;
      first [symmetry; apply updated_self | reflexivity].
  - unfold deleteBackward. intros H. step_results H; injection H as <-; reflexivity.
  - unfold deleteForward. intros H. step_results H; injection H as <-; reflexivity.
  - unfold insertText. intros H. step_results H; injection H as <-; reflexivity.
  - unfold Model.split. intros H. step_results H; injection H as <-; reflexivity.
  - unfold invoke. destruct (lookup State_prototype method) as [f |] eqn:E;
      [| discriminate].
    apply lookup_State_prototype in E as [_ ->].
    unfold document_like. intros H. step_results H; injection H as <-; reflexivity.
Qed.

(** X1. A chain of editing methods, however long and in whatever order, that
    returns a state returns one with the history and the [isNative] flag
    of the state the chain started from: the editing methods never record
    an undo entry and never clear the redo stack. *)
Theorem chain_keeps_history_and_isNative (edits : list edit) (this next : State) :
  run_all this edits = Ok next ->
  history next = history this /\ isNative next = isNative this.
Proof.
  revert this. induction edits as [| e rest IH]; intros this; cbn [run_all].
  - intros H. injection H as <-. split; reflexivity.
  - destruct (run this e) as [middle | err] eqn:E; cbn [bind]; [| discriminate].
    intros H. apply IH in H as [Hh Hn]. apply run_updates in E.
    rewrite Hh, Hn, E. split; reflexivity.
Qed.

(** X2. A chain of document-like methods on a state is the same chain of
    document methods on its document: it fails where and as the document
    chain fails, and otherwise returns the receiver with the final
    document; the selection is not consulted and not changed. *)
Theorem document_like_chain (calls : list (string * list Value)) (this : State) :
  Forall (fun c => In (fst c) DOCUMENT_LIKE_METHODS) calls ->
  invoke_all this calls =
  (document' <- call_all (document this) calls ;;
   Ok (updated this document' (selection this))).
Proof.
  intros Hall. revert this.
  induction Hall as [| [method args] rest Hin _ IH]; intros this;
    cbn [invoke_all call_all bind ret].
  - rewrite updated_self. reflexivity.
  - cbn [fst] in Hin. rewrite (invoke_document_like _ _ _ Hin). unfold document_like.
    destruct (call (document this) method args) as [d | err]; cbn [bind ret];
      [| reflexivity].
    rewrite merge_document, IH. reflexivity.
Qed.

(** X3. Where moving a selection to its start collapses it, [delete()] is
    idempotent: deleting again changes nothing, and a [delete()] that
    throws keeps throwing the same exception. *)
Theorem delete_idempotent (this : State) :
  isCollapsed (moveToStart (selection this)) = true ->
  (next <- delete this ;; delete next) = delete this.
Proof.
  intros Hstart. unfold delete at 1 3.
  destruct (isCollapsed (selection this)) eqn:Hcol; cbn [bind ret].
  - unfold delete. rewrite Hcol. reflexivity.
  - destruct (call (document this) "deleteAtRange" [VSelection (selection this)])
      as [d | err]; cbn [bind ret]; [| reflexivity].
    unfold delete. cbn [merge default_param p_selection selection].
    rewrite Hstart. reflexivity.
Qed.

(** X4. Where moving a selection to its start collapses it, the three
    deletions leave no expanded selection behind: [delete()] and
    [deleteForward(n)] always return a collapsed selection, and so does
    [deleteBackward(n)] on an expanded one. *)
Theorem deletions_collapse_selection (this next : State) (n : option Z) :
  isCollapsed (moveToStart (selection this)) = true ->
  (delete this = Ok next -> isCollapsed (selection next) = true)
  /\ (deleteForward this n = Ok next -> isCollapsed (selection next) = true)
  /\ (isExpanded (selection this) = true ->
      deleteBackward this n = Ok next -> isCollapsed (selection next) = true).
Proof.
  intros Hstart. split; [| split].
  - unfold delete. intros H. step_results H; injection H as <-; assumption.
  - rewrite deleteForward_unfold. intros H. step_results H; injection H as <-;
      cbn [updated selection]; [assumption |].
    rewrite isExpanded_isCollapsed in E0.
    destruct (isCollapsed (selection this)); [reflexivity | discriminate].
  - intros Hexp. unfold deleteBackward. rewrite Hexp. intros H.
    step_results H; injection H as <-; assumption.
Qed.

(** X5. The count given to [deleteBackward] decides how far the cursor moves
    and nothing else: with another count the method returns as well, and
    returns the same document. *)
Theorem deleteBackward_document_ignores_count (this next : State) (n m : option Z) :
  deleteBackward this n = Ok next ->
  exists other,
    deleteBackward this m = Ok other /\ document other = document next.
Proof.
  unfold deleteBackward.
  destruct (getNode (document this) (startKey (selection this))) as [startNode | e0];
    cbn [bind]; [| discriminate].
  destruct (call (document this) "deleteBackwardAtRange" [VSelection (selection this)])
    as [document' | e1] eqn:Hcall.
  - destruct (isExpanded (selection this)); cbn [bind ret].
    + intros H. injection H as <-. eexists. split; reflexivity.
    + destruct (isAtStartOf (selection this) startNode) as [[|] | e2]; cbn [bind];
        [| | discriminate].
      * destruct (parent <- getParentNode (document this) startNode ;;
                  sibling <- getPreviousNode (document this) parent ;;
                  previous <- nodes_first sibling ;;
                  moveToEndOf (selection this) previous) as [after | e3];
          cbn [bind ret]; [| discriminate].
        intros H. injection H as <-. eexists. split; reflexivity.
      * destruct (isAtEndOf (selection this) (Some (asNode (document this))))
          as [[|] | e3]; cbn [bind ret negb]; [| | discriminate];
          intros H; injection H as <-; eexists; split; reflexivity.
  - intros H. step_results H.
Qed.

(** X6. [deleteBackward] at the start of a node whose parent follows a node
    without a [nodes] list (a bare text node) throws a [TypeError]: it
    calls [.first()] on [undefined]. *)
Theorem deleteBackward_previous_sibling_without_nodes
        (this : State) (arg : option Z) (startNode parent : option Node) (sibling : Node) :
  isCollapsed (selection this) = true ->
  getNode (document this) (startKey (selection this)) = Ok startNode ->
  isAtStartOf (selection this) startNode = Ok true ->
  getParentNode (document this) startNode = Ok parent ->
  getPreviousNode (document this) parent = Ok (Some sibling) ->
  nodes sibling = None ->
  deleteBackward this arg = Throw (CannotReadProperty "first").
Proof.
  intros Hcol Hnode Hstart Hparent Hprev Hnodes. unfold deleteBackward.
  rewrite Hnode, (collapsed_not_expanded _ Hcol). cbn [bind].
  rewrite Hstart. cbn [bind]. rewrite Hparent. cbn [bind].
  rewrite Hprev. cbn [bind nodes_first]. rewrite Hnodes. reflexivity.
Qed.

(** X7. [deleteBackward] at the start of a node whose parent follows an empty
    container hands [undefined] to [selection.moveToEndOf]; when that
    throws, [deleteBackward] throws the same exception and the document
    is never asked to delete. *)
Theorem deleteBackward_previous_sibling_empty
        (this : State) (arg : option Z) (startNode parent : option Node) (sibling : Node)
        (e : error) :
  isCollapsed (selection this) = true ->
  getNode (document this) (startKey (selection this)) = Ok startNode ->
  isAtStartOf (selection this) startNode = Ok true ->
  getParentNode (document this) startNode = Ok parent ->
  getPreviousNode (document this) parent = Ok (Some sibling) ->
  nodes sibling = Some [] ->
  moveToEndOf (selection this) None = Throw e ->
  deleteBackward this arg = Throw e.
Proof.
  intros Hcol Hnode Hstart Hparent Hprev Hnodes Hmove. unfold deleteBackward.
  rewrite Hnode, (collapsed_not_expanded _ Hcol). cbn [bind].
  rewrite Hstart. cbn [bind]. rewrite Hparent. cbn [bind].
  rewrite Hprev. cbn [bind nodes_first]. rewrite Hnodes. cbn [bind hd_error].
  rewrite Hmove. reflexivity.
Qed.

(** X8. The loop over [DOCUMENT_LIKE_METHODS] fills exactly the five slots it
    names, and each slot holds the function that calls the document method
    of the slot's own name, not the one of the last name of the loop. *)
Theorem State_prototype_slots (method : string) (f : Method (Entry := Entry)) :
  lookup State_prototype method = Some f
  <-> In method DOCUMENT_LIKE_METHODS /\ f = document_like method.
Proof.
  split.
  - unfold State_prototype, DOCUMENT_LIKE_METHODS. cbn [fold_left assign lookup].
    repeat match goal with
           | |- context [String.eqb ?a method] =>
               destruct (String.eqb_spec a method) as [<- | _]
           end;
      intros H; try discriminate H; injection H as <-;
      (split; [cbn; tauto | reflexivity]).
  - cbn [In DOCUMENT_LIKE_METHODS].
    intros [[<- | [<- | [<- | [<- | [<- | []]]]]] ->]; reflexivity.
Qed.

(** X9. Each deletion and [split()] changes the document exactly as the
    document-like method of the matching name does when called with the
    selection of the state: whenever the editing method returns, that
    method returns too, with the same document and the selection left
    alone. *)
Theorem editing_document_is_document_like (this next : State) (n : option Z) :
  (isCollapsed (selection this) = false -> delete this = Ok next ->
   invoke this "deleteAtRange" [VSelection (selection this)]
   = Ok (updated this (document next) (selection this)))
  /\ (deleteBackward this n = Ok next ->
      invoke this "deleteBackwardAtRange" [VSelection (selection this)]
      = Ok (updated this (document next) (selection this)))
  /\ (deleteForward this n = Ok next ->
      invoke this "deleteForwardAtRange" [VSelection (selection this)]
      = Ok (updated this (document next) (selection this)))
  /\ (Model.split this = Ok next ->
      invoke this "splitAtRange" [VSelection (selection this)]
      = Ok (updated this (document next) (selection this))).
Proof.
  split; [| split; [| split]].
  - intros Hcol. unfold delete. rewrite Hcol. intros H.
    step_results H. injection H as <-.
    change (invoke this "deleteAtRange" [VSelection (selection this)])
      with (document_like "deleteAtRange" this [VSelection (selection this)]).
    unfold document_like. rewrite E. reflexivity.
  - unfold deleteBackward. intros H. step_results H; injection H as <-;
      change (invoke this "deleteBackwardAtRange" [VSelection (selection this)])
        with (document_like "deleteBackwardAtRange" this [VSelection (selection this)]);
      unfold document_like;
      match goal with E : call _ _ _ = Ok _ |- _ => rewrite E end; reflexivity.
  - unfold deleteForward. intros H. step_results H; injection H as <-;
      change (invoke this "deleteForwardAtRange" [VSelection (selection this)])
        with (document_like "deleteForwardAtRange" this [VSelection (selection this)]);
      unfold document_like;
      match goal with E : call _ _ _ = Ok _ |- _ => rewrite E end; reflexivity.
  - unfold Model.split. intros H. step_results H; injection H as <-;
      change (invoke this "splitAtRange" [VSelection (selection this)])
        with (document_like "splitAtRange" this [VSelection (selection this)]);
      unfold document_like;
      match goal with E : call _ _ _ = Ok _ |- _ => rewrite E end; reflexivity.
Qed.

End WithCollaborators.

(** *** The tree model *)

Import Examples.

(** In the tree model a selection moved to its start is collapsed, at the
    start endpoint of the original. *)
Lemma Tree_moveToStart_collapsed (s : Tree.selection) :
  Tree.isCollapsed (Tree.moveToStart s) = true
  /\ Tree.sel_startKey (Tree.moveToStart s) = Tree.sel_startKey s
  /\ Tree.sel_startOffset (Tree.moveToStart s) = Tree.sel_startOffset s.
Proof.
  unfold Tree.isCollapsed, Tree.moveToStart. cbn [Tree.sel_startKey Tree.sel_startOffset
    Tree.sel_endKey Tree.sel_endOffset]. repeat split.
  rewrite Z.eqb_refl, andb_true_r.
  destruct (Tree.sel_startKey s) as [k |]; cbn; [apply Nat.eqb_refl | reflexivity].
Qed.

(** The tree document answers to the five names of [DOCUMENT_LIKE_METHODS]. *)
Lemma Tree_has_document_like_methods :
  Forall (fun name => Tree.Document_method name <> None)
         DOCUMENT_LIKE_METHODS.
Proof. repeat constructor; discriminate. Qed.

(** Inserting through the document-like method [insertAtRange] splices the
    text into the document and leaves the selection where it was. *)
Example insertAtRange_hello_world :
  invoke hello_cursor "insertAtRange"
         [VSelection (Tree.collapsed_at 2 5); VString " there"]
  = Ok (state_of [Tree.Container 1 [Tree.Text 2 "Hello there World"]]
                 (Tree.collapsed_at 2 5)).
Proof. reflexivity. Qed.

Lemma delete_collapsed_is_identity_witness :
  isCollapsed (selection hello_cursor) = true
  /\ delete hello_cursor = Ok hello_cursor.
Proof.
  split; [reflexivity |].
  apply (delete_collapsed_is_identity hello_cursor). reflexivity.
Defined.

Lemma delete_expanded_witness :
  isExpanded (selection hello_selected) = true
  /\ delete hello_selected
     = Ok (state_of [Tree.Container 1 [Tree.Text 2 "Heorld"]] (Tree.collapsed_at 2 2)).
Proof.
  split; [reflexivity |].
  apply (delete_expanded hello_selected [Tree.Container 1 [Tree.Text 2 "Heorld"]]);
    reflexivity.
Defined.

Lemma deleteBackward_precedence_witness :
  deleteBackward foo_bar_selected None
  = Ok (state_of [Tree.Container 1 [Tree.Text 2 "Far"]] (Tree.collapsed_at 2 1))
  /\ deleteBackward bar_at_start (Some 1)
     = Ok (state_of foobar_merged (Tree.collapsed_at 2 3))
  /\ deleteBackward foo_inside None
     = Ok (state_of [Tree.Container 1 [Tree.Text 2 "Fo"]; Tree.Container 3 [Tree.Text 4 "Bar"]]
                    (Tree.collapsed_at 2 1))
  /\ deleteBackward bar_at_end (Some 1)
     = Ok (state_of [Tree.Container 1 [Tree.Text 2 "Foo"]; Tree.Container 3 [Tree.Text 4 "Ba"]]
                    (Tree.collapsed_at 4 3)).
Proof.
  split; [| split; [| split]].
  - apply (proj1 (deleteBackward_precedence foo_bar_selected None
                    (Some (Tree.Text 2 "Foo"))
                    [Tree.Container 1 [Tree.Text 2 "Far"]] eq_refl eq_refl)).
    reflexivity.
  - apply (proj1 (proj2 (deleteBackward_precedence bar_at_start (Some 1)
                           (Some (Tree.Text 4 "Bar")) foobar_merged eq_refl eq_refl))
             eq_refl eq_refl
             (Some (Tree.Container 3 [Tree.Text 4 "Bar"]))
             (Tree.Container 1 [Tree.Text 2 "Foo"])
             [Tree.Text 2 "Foo"]);
      reflexivity.
  - apply (proj1 (proj2 (proj2 (deleteBackward_precedence foo_inside None
                    (Some (Tree.Text 2 "Foo"))
                    [Tree.Container 1 [Tree.Text 2 "Fo"]; Tree.Container 3 [Tree.Text 4 "Bar"]]
                    eq_refl eq_refl))));
      reflexivity.
  - apply (proj2 (proj2 (proj2 (deleteBackward_precedence bar_at_end (Some 1)
                    (Some (Tree.Text 4 "Bar"))
                    [Tree.Container 1 [Tree.Text 2 "Foo"]; Tree.Container 3 [Tree.Text 4 "Ba"]]
                    eq_refl eq_refl))));
      reflexivity.
Defined.

Lemma deleteBackward_without_previous_sibling_witness :
  isCollapsed (selection hello_at_start) = true
  /\ isAtStartOf (selection hello_at_start) (Some (Tree.Text 2 "Hello World")) = Ok true
  /\ getPreviousNode hello_world (Some (Tree.Container 1 [Tree.Text 2 "Hello World"]))
     = Ok None
  /\ deleteBackward hello_at_start (Some 1) = Throw (CannotReadProperty "nodes").
Proof.
  split; [reflexivity | split; [reflexivity | split; [reflexivity |]]].
  apply (deleteBackward_without_previous_sibling hello_at_start (Some 1)
           (Some (Tree.Text 2 "Hello World"))
           (Some (Tree.Container 1 [Tree.Text 2 "Hello World"])));
    reflexivity.
Defined.



(** C3. [deleteForward(2)] with the cursor before "Foo" removes one
    character, where [document.deleteForwardAtRange(selection, 2)] removes
    two: the count never reaches the document. *)
Theorem deleteForward_drops_count :
  deleteForward foo_at_start (Some 2)
  = Ok (state_of [Tree.Container 1 [Tree.Text 2 "oo"]; Tree.Container 3 [Tree.Text 4 "Bar"]]
                 (Tree.collapsed_at 2 0))
  /\ call foo_bar "deleteForwardAtRange"
          [VSelection (Tree.collapsed_at 2 0); VNumber 2]
     = Ok [Tree.Container 1 [Tree.Text 2 "o"]; Tree.Container 3 [Tree.Text 4 "Bar"]].
Proof. split; reflexivity. Qed.

Lemma split_moves_into_next_sibling_witness :
  Model.split hello_cursor = Ok (state_of hello_split (Tree.collapsed_at 4 0)).
Proof.
  apply (split_moves_into_next_sibling hello_cursor hello_split
           (Some (Tree.Text 2 "Hello"))
           (Some (Tree.Container 1 [Tree.Text 2 "Hello"]))
           (Tree.Container 3 [Tree.Text 4 " World"])
           [Tree.Text 4 " World"]);
    reflexivity.
Defined.


Lemma editing_keeps_history_and_isNative_witness :
  run hello_with_past Split
  = Ok (updated hello_with_past hello_split (Tree.collapsed_at 4 0))
  /\ history (updated hello_with_past hello_split (Tree.collapsed_at 4 0)) = used_history
  /\ isNative (updated hello_with_past hello_split (Tree.collapsed_at 4 0)) = false.
Proof.
  split; [reflexivity |].
  apply (editing_keeps_history_and_isNative hello_with_past
           (updated hello_with_past hello_split (Tree.collapsed_at 4 0)) Split).
  reflexivity.
Defined.

Lemma chain_keeps_history_and_isNative_witness :
  run_all hello_with_past [Split; DeleteBackward (Some 1); DeleteForward None; Delete]
  = Ok (updated hello_with_past [Tree.Container 1 [Tree.Text 2 "HelloWorld"]]
          (Tree.collapsed_at 2 5))
  /\ history (updated hello_with_past [Tree.Container 1 [Tree.Text 2 "HelloWorld"]]
                (Tree.collapsed_at 2 5)) = used_history
  /\ isNative (updated hello_with_past [Tree.Container 1 [Tree.Text 2 "HelloWorld"]]
                 (Tree.collapsed_at 2 5)) = false.
Proof.
  split; [reflexivity |].
  apply (chain_keeps_history_and_isNative
           [Split; DeleteBackward (Some 1); DeleteForward None; Delete]
           hello_with_past).
  reflexivity.
Defined.

Lemma document_like_chain_witness :
  invoke_all hello_cursor insert_then_cut
  = Ok (state_of [Tree.Container 1 [Tree.Text 2 "there World"]] (Tree.collapsed_at 2 5)).
Proof.
  rewrite (document_like_chain (C := Tree_collaborators) insert_then_cut hello_cursor).
  - reflexivity.
  - repeat constructor; cbn; tauto.
Defined.

Lemma delete_idempotent_witness :
  isCollapsed (moveToStart (selection hello_selected)) = true
  /\ (next <- delete hello_selected ;; delete next) = delete hello_selected
  /\ delete hello_selected
     = Ok (state_of [Tree.Container 1 [Tree.Text 2 "Heorld"]] (Tree.collapsed_at 2 2)).
Proof.
  split; [reflexivity | split; [| reflexivity]].
  apply (delete_idempotent hello_selected). reflexivity.
Defined.

Lemma deletions_collapse_selection_witness :
  isCollapsed
    (selection (state_of [Tree.Container 1 [Tree.Text 2 "Far"]] (Tree.collapsed_at 2 1)))
  = true.
Proof.
  apply (proj2 (proj2 (deletions_collapse_selection foo_bar_selected
                         (state_of [Tree.Container 1 [Tree.Text 2 "Far"]]
                                   (Tree.collapsed_at 2 1))
                         (Some 1) eq_refl)));
    reflexivity.
Defined.

Lemma deleteBackward_document_ignores_count_witness :
  deleteBackward foo_inside (Some 2)
  = Ok (state_of [Tree.Container 1 [Tree.Text 2 "Fo"]; Tree.Container 3 [Tree.Text 4 "Bar"]]
                 (Tree.collapsed_at 2 0))
  /\ exists other,
       deleteBackward foo_inside None = Ok other
       /\ document other
          = [Tree.Container 1 [Tree.Text 2 "Fo"]; Tree.Container 3 [Tree.Text 4 "Bar"]].
Proof.
  split; [reflexivity |].
  apply (deleteBackward_document_ignores_count foo_inside
           (state_of [Tree.Container 1 [Tree.Text 2 "Fo"]; Tree.Container 3 [Tree.Text 4 "Bar"]]
                     (Tree.collapsed_at 2 0))
           (Some 2) None).
  reflexivity.
Defined.

Lemma deleteBackward_previous_sibling_without_nodes_witness :
  getPreviousNode text_then_block (Some (Tree.Container 2 [Tree.Text 3 "Bar"]))
  = Ok (Some (Tree.Text 1 "x"))
  /\ deleteBackward after_text_node None = Throw (CannotReadProperty "first").
Proof.
  split; [reflexivity |].
  apply (deleteBackward_previous_sibling_without_nodes after_text_node None
           (Some (Tree.Text 3 "Bar"))
           (Some (Tree.Container 2 [Tree.Text 3 "Bar"]))
           (Tree.Text 1 "x"));
    reflexivity.
Defined.

Lemma deleteBackward_previous_sibling_empty_witness :
  getPreviousNode empty_then_block (Some (Tree.Container 3 [Tree.Text 4 "Bar"]))
  = Ok (Some (Tree.Container 1 []))
  /\ deleteBackward after_empty_block None = Throw (CannotReadProperty "key").
Proof.
  split; [reflexivity |].
  apply (deleteBackward_previous_sibling_empty after_empty_block None
           (Some (Tree.Text 4 "Bar"))
           (Some (Tree.Container 3 [Tree.Text 4 "Bar"]))
           (Tree.Container 1 []));
    reflexivity.
Defined.

Lemma editing_document_is_document_like_witness :
  invoke hello_cursor "splitAtRange" [VSelection (Tree.collapsed_at 2 5)]
  = Ok (state_of hello_split (Tree.collapsed_at 2 5))
  /\ invoke bar_at_start "deleteBackwardAtRange" [VSelection (Tree.collapsed_at 4 0)]
     = Ok (state_of foobar_merged (Tree.collapsed_at 4 0)).
Proof.
  split.
  - apply (proj2 (proj2 (proj2 (editing_document_is_document_like hello_cursor
                                  (state_of hello_split (Tree.collapsed_at 4 0)) None)))).
    reflexivity.
  - apply (proj1 (proj2 (editing_document_is_document_like bar_at_start
                           (state_of foobar_merged (Tree.collapsed_at 2 3)) (Some 1)))).
    reflexivity.
Defined.

(** *** Editing a paragraph of the tree model *)

Lemma substring_whole (s : string) : String.substring 0 (String.length s) s = s.
Proof. induction s as [| c s IH]; cbn; [reflexivity | rewrite IH; reflexivity]. Qed.


Lemma substring_prefix_suffix (s : string) (n : nat) :
  (String.substring 0 n s ++ String.substring n (String.length s - n) s)%string = s.
Proof.
  revert n. induction s as [| c s IH]; intros [| n]; cbn; try reflexivity.
  - rewrite substring_whole. reflexivity.
  - rewrite IH. reflexivity.
Qed.

Lemma substring_prefix_length (s : string) (n : nat) :
  (n <= String.length s)%nat -> String.length (String.substring 0 n s) = n.
Proof.
  revert n. induction s as [| c s IH]; intros [| n] H; cbn in *; try reflexivity.
  - inversion H.
  - rewrite IH; [reflexivity | apply le_S_n; exact H].
Qed.

Lemma string_length_append (a b : string) :
  String.length (a ++ b) = (String.length a + String.length b)%nat.
Proof. induction a as [| c a IH]; cbn; [reflexivity | rewrite IH; reflexivity]. Qed.

Lemma Tree_take_drop (offset : Z) (s : string) :
  (Tree.take offset s ++ Tree.drop offset s)%string = s.
Proof. apply substring_prefix_suffix. Qed.

Lemma Tree_take_all (s : string) : Tree.take (JS.length s) s = s.
Proof. unfold Tree.take, JS.length. rewrite Nat2Z.id. apply substring_whole. Qed.

Lemma Tree_drop_zero (s : string) : Tree.drop 0 s = s.
Proof.
  unfold Tree.drop. change (Z.to_nat 0) with 0%nat.
  rewrite Nat.sub_0_r. apply substring_whole.
Qed.


Lemma Tree_length_take (offset : Z) (s : string) :
  0 <= offset <= JS.length s -> JS.length (Tree.take offset s) = offset.
Proof.
  unfold Tree.take, JS.length. intros [H0 H1].
  rewrite substring_prefix_length.
  - apply Z2Nat.id. exact H0.
  - apply Nat2Z.inj_le. rewrite Z2Nat.id by exact H0. exact H1.
Qed.

Lemma Tree_cursor_not_expanded (k : Tree.key) (offset : Z) :
  Tree.isExpanded (Tree.collapsed_at k offset) = false.
Proof.
  unfold Tree.isExpanded, Tree.isCollapsed, Tree.collapsed_at. cbn.
  rewrite Nat.eqb_refl, Z.eqb_refl. reflexivity.
Qed.

(** [split()] inside a paragraph: the text is divided at the cursor
    between the block and a new block after it, and the cursor goes to the
    start of the new block. *)
Lemma Tree_split_paragraph
      (text : string) (offset : Z) (h : History (Entry := string)) (native : bool) :
  Model.split (snapshot (paragraph text) (Tree.collapsed_at 2 offset) h native)
  = Ok (snapshot (two_blocks (Tree.take offset text) (Tree.drop offset text))
          (Tree.collapsed_at 4 0) h native).
Proof.
  unfold Model.split, snapshot, paragraph, two_blocks.
  cbn -[Z.eqb Tree.take Tree.drop JS.length Tree.isExpanded].
  rewrite Tree_cursor_not_expanded. reflexivity.
Qed.

(** [deleteBackward(n)] at the start of the second of two blocks: the
    blocks become one, and the cursor stands where they were joined. *)
Lemma Tree_deleteBackward_two_blocks
      (a b : string) (n : option Z) (h : History (Entry := string)) (native : bool) :
  deleteBackward (snapshot (two_blocks a b) (Tree.collapsed_at 4 0) h native) n
  = Ok (snapshot (paragraph (a ++ b)) (Tree.collapsed_at 2 (JS.length a)) h native).
Proof.
  unfold deleteBackward, snapshot, paragraph, two_blocks.
  cbn -[Z.eqb Tree.take Tree.drop JS.length Tree.isExpanded].
  rewrite Tree_cursor_not_expanded. cbn -[Tree.take Tree.drop JS.length].
  rewrite Tree_take_all, Tree_drop_zero. reflexivity.
Qed.

(** X10. On the tree model, [split()] followed by [deleteBackward(n)] is a
    round trip: for a cursor anywhere in a paragraph, with any text, the
    chain returns the state it started from, document, selection, history
    and flag. *)
Theorem split_then_deleteBackward_round_trip
        (text : string) (offset : Z) (n : option Z)
        (h : History (Entry := string)) (native : bool) :
  0 <= offset <= JS.length text ->
  run_all (snapshot (paragraph text) (Tree.collapsed_at 2 offset) h native)
          [Split; DeleteBackward n]
  = Ok (snapshot (paragraph text) (Tree.collapsed_at 2 offset) h native).
Proof.
  intros Hoffset. cbn [run_all run]. rewrite Tree_split_paragraph. cbn [bind].
  rewrite Tree_deleteBackward_two_blocks. cbn [bind ret].
  rewrite Tree_take_drop, (Tree_length_take _ _ Hoffset). reflexivity.
Qed.


Lemma split_then_deleteBackward_round_trip_witness :
  0 <= 5 <= JS.length "Hello World"
  /\ run_all hello_with_past [Split; DeleteBackward None] = Ok hello_with_past.
Proof.
  split; [split; discriminate |].
  apply (split_then_deleteBackward_round_trip "Hello World" 5 None used_history false).
  split; discriminate.
Defined.


(** *** Typing into a paragraph: a document that has [insertTextAtRange] *)

Lemma string_append_assoc (a b c : string) :
  ((a ++ b) ++ c)%string = (a ++ (b ++ c))%string.
Proof. induction a as [| x a IH]; cbn; [reflexivity | rewrite IH; reflexivity]. Qed.

Lemma substring_append_prefix (p q : string) :
  String.substring 0 (String.length p) (p ++ q) = p.
Proof.
  induction p as [| c p IH]; cbn; [destruct q; reflexivity | rewrite IH; reflexivity].
Qed.

Lemma substring_append_suffix (p q : string) :
  String.substring (String.length p) (String.length (p ++ q) - String.length p) (p ++ q)
  = q.
Proof.
  induction p as [| c p IH]; cbn.
  - rewrite Nat.sub_0_r. apply substring_whole.
  - exact IH.
Qed.

(** The offset just after a text spliced in at [offset]. *)
Lemma Tree_offset_after (offset : Z) (t text : string) :
  0 <= offset <= JS.length text ->
  Z.to_nat (offset + JS.length t) = String.length (Tree.take offset text ++ t).
Proof.
  intros H. rewrite string_length_append. apply Nat2Z.inj.
  rewrite Nat2Z.inj_add. fold (JS.length (Tree.take offset text)). fold (JS.length t).
  rewrite (Tree_length_take _ _ H). apply Z2Nat.id.
  unfold JS.length in *. lia.
Qed.

Lemma Tree_take_splice (offset : Z) (t text : string) :
  0 <= offset <= JS.length text ->
  Tree.take (offset + JS.length t) (Tree.splice offset t text)
  = (Tree.take offset text ++ t)%string.
Proof.
  intros H. unfold Tree.splice. rewrite <- string_append_assoc.
  unfold Tree.take at 1. rewrite (Tree_offset_after _ _ _ H).
  apply substring_append_prefix.
Qed.

Lemma Tree_drop_splice (offset : Z) (t text : string) :
  0 <= offset <= JS.length text ->
  Tree.drop (offset + JS.length t) (Tree.splice offset t text) = Tree.drop offset text.
Proof.
  intros H. unfold Tree.splice. rewrite <- string_append_assoc.
  unfold Tree.drop at 1. rewrite (Tree_offset_after _ _ _ H).
  apply substring_append_suffix.
Qed.

(** [insertText] on a paragraph of [Tree_typing], evaluated. *)
Lemma Tree_typing_insertText
      (text t : string) (offset : Z) (h : History (Entry := string)) (native : bool) :
  0 <= offset ->
  insertText (typing_snapshot (paragraph text) (Tree.collapsed_at 2 offset) h native) t
  = Ok (typing_snapshot (paragraph (Tree.splice offset t text))
          (Tree.collapsed_at 2 (offset + JS.length t)) h native).
Proof.
  intros H. unfold insertText, typing_snapshot, paragraph.
  cbn -[Z.eqb Tree.splice JS.length Tree.isExpanded Z.max Z.add].
  rewrite Tree_cursor_not_expanded.
  cbn -[Z.eqb Tree.splice JS.length Tree.isExpanded Z.max Z.add].
  unfold Tree.moveForward, Tree.shift, Tree.collapsed_at, merge.
  cbn -[Tree.splice JS.length Z.max Z.add].
  rewrite Z.max_r by (unfold JS.length; lia). reflexivity.
Qed.

(** X12. Where the document has the method [insertText] calls, typing into a
    paragraph splices the text in at the cursor and leaves the cursor
    right after it: the text before the new cursor is the text before the
    old one followed by what was typed. *)
Theorem insertText_advances_past_text
        (text t : string) (offset : Z) (h : History (Entry := string)) (native : bool) :
  0 <= offset <= JS.length text ->
  insertText (typing_snapshot (paragraph text) (Tree.collapsed_at 2 offset) h native) t
  = Ok (typing_snapshot (paragraph (Tree.take offset text ++ t ++ Tree.drop offset text))
          (Tree.collapsed_at 2 (offset + JS.length t)) h native)
  /\ Tree.take (offset + JS.length t) (Tree.take offset text ++ t ++ Tree.drop offset text)
     = (Tree.take offset text ++ t)%string.
Proof.
  intros H. split.
  - apply Tree_typing_insertText. apply H.
  - apply (Tree_take_splice _ _ _ H).
Qed.

(** X13. Where the document has the method [insertText] calls, typing a text
    in two parts gives the state that typing it at once gives. *)
Theorem insertText_in_two_parts
        (text a b : string) (offset : Z) (h : History (Entry := string)) (native : bool) :
  0 <= offset <= JS.length text ->
  (next <- insertText (typing_snapshot (paragraph text) (Tree.collapsed_at 2 offset)
                         h native) a ;;
   insertText next b)
  = insertText (typing_snapshot (paragraph text) (Tree.collapsed_at 2 offset) h native)
               (a ++ b).
Proof.
  intros H.
  rewrite (Tree_typing_insertText text a) by apply H. cbn [bind].
  rewrite (Tree_typing_insertText _ b) by (unfold JS.length; lia).
  rewrite (Tree_typing_insertText text (a ++ b)) by apply H.
  assert (Hlen : JS.length (a ++ b) = JS.length a + JS.length b).
  { unfold JS.length. rewrite string_length_append. apply Nat2Z.inj_add. }
  rewrite Hlen, Z.add_assoc. do 3 f_equal.
  unfold Tree.splice at 1.
  rewrite (Tree_take_splice _ _ _ H), (Tree_drop_splice _ _ _ H).
  unfold Tree.splice. rewrite !string_append_assoc. reflexivity.
Qed.

Lemma insertText_advances_past_text_witness :
  insertText (typing_snapshot (paragraph "Hello World") (Tree.collapsed_at 2 5)
                used_history false) " there"
  = Ok (typing_snapshot (paragraph "Hello there World") (Tree.collapsed_at 2 11)
          used_history false)
  /\ Tree.take 11 "Hello there World" = "Hello there".
Proof.
  apply (insertText_advances_past_text "Hello World" " there" 5 used_history false).
  split; discriminate.
Defined.

Lemma insertText_in_two_parts_witness :
  (next <- insertText (typing_snapshot (paragraph "Hello World") (Tree.collapsed_at 2 5)
                         fresh_history true) " th" ;;
   insertText next "ere")
  = Ok (typing_snapshot (paragraph "Hello there World") (Tree.collapsed_at 2 11)
          fresh_history true).
Proof.
  rewrite (insertText_in_two_parts "Hello World" " th" "ere" 5 fresh_history true).
  - reflexivity.
  - split; discriminate.
Defined.

End Laws.
